(** * grading-calendar-ai: document-processing status and access rules

    A shallow embedding of

    - [src/frontend/src/components/DocumentProcessingStatus.tsx]: the derived
      values of the status component (counts, progress, gating flags), the
      snapshot listener and the two action handlers;
    - the Firestore security rules ([rules_version = '2']).

    JavaScript numbers are IEEE-754 binary64 values.  Lengths and step
    counters stay far below 2^53, so they are kept as [nat]/[Z]; the one
    place where rounding matters, the quotient and product inside
    [calculateProgress], is computed with the binary64 operations of
    [SpecFloat]. *)

From Stdlib Require Import ZArith List String Bool Lia Arith.
From Stdlib Require Import SpecFloat Permutation.
Import ListNotations.
Local Open Scope string_scope.
Local Open Scope nat_scope.

(** ** Document records *)

Module Doc.
(** [interface Document] (lines 6-12). *)
Record t := mk {
  id : string;
  documentType : string;
  status : string;
  name : string;
  error : option string
}.
End Doc.

(** [documents.filter(doc => doc.status === s).length] *)
Definition count_status (s : string) (documents : list Doc.t) : nat :=
  List.length (filter (fun doc => String.eqb (Doc.status doc) s) documents).

(** [documents.filter(doc => doc.documentType === ty).length] *)
Definition count_type (ty : string) (documents : list Doc.t) : nat :=
  List.length (filter (fun doc => String.eqb (Doc.documentType doc) ty) documents).

Module Counts.
Record t := mk { uploaded : nat; extracted : nat; processed : nat; error : nat }.
End Counts.

Module TypeCount.
Record t := mk { syllabus : nat; transcript : nat; grades : nat }.
End TypeCount.

(** [documentCounts] (lines 58-63). *)
Definition documentCounts (documents : list Doc.t) : Counts.t :=
  {| Counts.uploaded := count_status "uploaded" documents;
     Counts.extracted := count_status "extracted" documents;
     Counts.processed := count_status "processed" documents;
     Counts.error := count_status "error" documents |}.

(** [documentTypeCount] (lines 66-70). *)
Definition documentTypeCount (documents : list Doc.t) : TypeCount.t :=
  {| TypeCount.syllabus := count_type "syllabus" documents;
     TypeCount.transcript := count_type "transcript" documents;
     TypeCount.grades := count_type "grades" documents |}.

Definition hasSyllabus (documents : list Doc.t) : bool :=
  0 <? TypeCount.syllabus (documentTypeCount documents).

Definition hasMinimumDocuments (documents : list Doc.t) : bool :=
  hasSyllabus documents.

(** The sum over the four buckets of [documentCounts]. *)
Definition sum_counts (c : Counts.t) : nat :=
  Counts.uploaded c + Counts.extracted c + Counts.processed c + Counts.error c.

(** ** binary64 arithmetic used by [calculateProgress] *)

Module Number.
Definition prec : Z := 53.
Definition emax : Z := 1024.

(** The double nearest to an integer (exact below 2^53). *)
Definition of_Z (z : Z) : spec_float := binary_normalize prec emax z 0 false.

Definition div : spec_float -> spec_float -> spec_float := SFdiv prec emax.
Definition mul : spec_float -> spec_float -> spec_float := SFmul prec emax.

(** [Math.round]: the integer closest to [x], ties towards +infinity, that
    is floor(x + 1/2) computed exactly.  A finite double is
    [(+/-) m * 2^e].  The result is given as an integer; NaN and the
    infinities, which [Math.round] hands back unchanged, do not arise from
    a quotient of two positive counters and are mapped to 0. *)
Definition round (x : spec_float) : Z :=
  match x with
  | S754_finite s m e =>
      let v := cond_Zopp s (Zpos m) in
      if (0 <=? e)%Z then (v * 2 ^ e)%Z
      else ((2 * v + 2 ^ (- e)) / 2 ^ (1 - e))%Z
  | _ => 0%Z
  end.
End Number.

(** ** Progress *)

Definition is_done (doc : Doc.t) : bool :=
  String.eqb (Doc.status doc) "extracted" || String.eqb (Doc.status doc) "processed".

(** The [forEach] loop of [calculateProgress] (lines 131-141). *)
Definition completedSteps (documents : list Doc.t) : nat :=
  fold_left
    (fun completed doc =>
       let completed := completed + 1 in
       if is_done doc then completed + 1 else completed)
    documents 0.

(** [calculateProgress] (lines 127-144). *)
Definition calculateProgress (documents : list Doc.t) : Z :=
  if List.length documents =? 0 then 0%Z
  else
    let totalSteps := List.length documents * 2 in
    Number.round
      (Number.mul
         (Number.div (Number.of_Z (Z.of_nat (completedSteps documents)))
                     (Number.of_Z (Z.of_nat totalSteps)))
         (Number.of_Z 100)).

(** [canFormat] (line 147). *)
Definition canFormat (documents : list Doc.t) (isFormatting : bool) : bool :=
  (0 <? Counts.extracted (documentCounts documents)) && negb isFormatting.

(** [allProcessed] inside the snapshot listener (line 48). *)
Definition allProcessed (docs : list Doc.t) : bool :=
  (0 <? List.length docs) && forallb (fun doc => String.eqb (Doc.status doc) "processed") docs.

(** The specification's formula for the progress: round(100 * (n + e) / (2 * n)),
    with exact rational arithmetic and the rounding of [Math.round] (ties up);
    0 when there is no record. *)
Definition spec_progressPercent (n e : nat) : Z :=
  if n =? 0 then 0%Z
  else ((2 * (100 * Z.of_nat (n + e)) + Z.of_nat (2 * n)) / (2 * Z.of_nat (2 * n)))%Z.

(** The same formula with ties rounded to the even integer. *)
Definition spec_progressPercent_half_even (n e : nat) : Z :=
  if n =? 0 then 0%Z
  else
    let num := (100 * Z.of_nat (n + e))%Z in
    let den := Z.of_nat (2 * n) in
    let q := (num / den)%Z in
    let r := (num mod den)%Z in
    if (2 * r <? den)%Z then q
    else if (den <? 2 * r)%Z then (q + 1)%Z
    else if Z.even q then q else (q + 1)%Z.

(** ** Component state, effects and the external function *)

(** The four [useState] cells of the component (lines 20-23). *)
Record State := mkState {
  documents : list Doc.t;
  isFormatting : bool;
  error : option string;
  status : string
}.

(** One call of a callable Cloud Function: its name and the fields of the
    argument object ([{}] is the empty list). *)
Record Invocation := mkInvocation {
  callable : string;
  data : list (string * string)
}.

(** [result.data] of a fulfilled call: [{ success, message? }]. *)
Record ResultData := mkResultData {
  success : bool;
  message : option string
}.

(** A thrown value, seen through its [message] property. *)
Record JsError := mkJsError { err_message : option string }.

(** How the promise returned by the callable settles. *)
Inductive Settlement :=
| Fulfilled (result : ResultData)
| Rejected (err : JsError).

(** Everything the handlers can touch: the component state, the calls issued
    to the functions backend, the console, the number of times
    [onProcessingComplete] was called and the errors nobody caught. *)
Record World := mkWorld {
  view : State;
  invoked : list Invocation;
  console : list string;
  completions : nat;
  unhandled : list JsError
}.

(** Props and context of the component: [useAuth().currentUser] (its uid) and
    whether the optional [onProcessingComplete] prop was passed. *)
Record Env := mkEnv {
  currentUser : option string;
  hasOnProcessingComplete : bool
}.

(** A computation either completes normally or throws; its effects on the
    world are kept in both cases. *)
Inductive Completion (A : Type) :=
| Normal (a : A)
| Throw (err : JsError).
Arguments Normal {A} a.
Arguments Throw {A} err.

Definition Eff (A : Type) : Type := World -> Completion A * World.

Definition ret {A} (a : A) : Eff A := fun w => (Normal a, w).

Definition bind {A B} (c : Eff A) (k : A -> Eff B) : Eff B :=
  fun w =>
    match c w with
    | (Normal a, w') => k a w'
    | (Throw err, w') => (Throw err, w')
    end.

Definition throw {A} (err : JsError) : Eff A := fun w => (Throw err, w).

(** [try { body } catch (err) { handler }] *)
Definition try_catch {A} (body : Eff A) (handler : JsError -> Eff A) : Eff A :=
  fun w =>
    match body w with
    | (Normal a, w') => (Normal a, w')
    | (Throw err, w') => handler err w'
    end.

(** [try { body } finally { fin }]: [fin] always runs; a throw of [fin]
    replaces the completion of [body]. *)
Definition try_finally {A} (body : Eff A) (fin : Eff unit) : Eff A :=
  fun w =>
    match body w with
    | (c, w') =>
        match fin w' with
        | (Normal _, w'') => (c, w'')
        | (Throw err, w'') => (Throw err, w'')
        end
    end.

Declare Scope eff_scope.
Delimit Scope eff_scope with eff.
Notation "x <- c ;; k" := (bind c (fun x => k))
  (at level 61, c at next level, right associativity) : eff_scope.
Notation "c ;; k" := (bind c (fun _ => k))
  (at level 61, right associativity) : eff_scope.
Local Open Scope eff_scope.

Definition modify_view (f : State -> State) : Eff unit :=
  fun w => (Normal tt,
            {| view := f (view w); invoked := invoked w; console := console w;
               completions := completions w; unhandled := unhandled w |}).

Definition setDocuments (docs : list Doc.t) : Eff unit :=
  modify_view (fun s => {| documents := docs; isFormatting := isFormatting s;
                           error := error s; status := status s |}).

Definition setIsFormatting (b : bool) : Eff unit :=
  modify_view (fun s => {| documents := documents s; isFormatting := b;
                           error := error s; status := status s |}).

Definition setError (e : option string) : Eff unit :=
  modify_view (fun s => {| documents := documents s; isFormatting := isFormatting s;
                           error := e; status := status s |}).

Definition setStatus (msg : string) : Eff unit :=
  modify_view (fun s => {| documents := documents s; isFormatting := isFormatting s;
                           error := error s; status := msg |}).

(** [httpsCallable(functions, name)(args)]: the request leaves. *)
Definition call (name : string) (args : list (string * string)) : Eff unit :=
  fun w => (Normal tt,
            {| view := view w;
               invoked := invoked w ++ [{| callable := name; data := args |}];
               console := console w; completions := completions w;
               unhandled := unhandled w |}).

(** [await promise], once the promise has settled. *)
Definition await (o : Settlement) : Eff ResultData :=
  match o with
  | Fulfilled result => ret result
  | Rejected err => throw err
  end.

Definition console_error (label : string) : Eff unit :=
  fun w => (Normal tt,
            {| view := view w; invoked := invoked w;
               console := console w ++ [label];
               completions := completions w; unhandled := unhandled w |}).

(** A call of the [onProcessingComplete] prop. *)
Definition onProcessingComplete : Eff unit :=
  fun w => (Normal tt,
            {| view := view w; invoked := invoked w; console := console w;
               completions := S (completions w); unhandled := unhandled w |}).

(** [v || fallback] on an optional string: [undefined] and the empty string
    are falsy. *)
Definition or_else (v : option string) (fallback : string) : string :=
  match v with
  | Some s => if String.eqb s "" then fallback else s
  | None => fallback
  end.

(** ** The action handlers

    An [async] handler runs synchronously up to its [await] and is resumed
    when the promise settles.  [_enter] is the part before the [await]; it
    returns [true] when the handler is now suspended on an issued call.
    [_resume] is the rest, run with the settlement.  The [try] of the source
    opens just before the call is issued; issuing it does not throw, so the
    [try]/[catch]/[finally] is placed around the [await] in [_resume]. *)

(** [handleFormatDocuments] (lines 79-101), before the [await]. *)
Definition handleFormatDocuments_enter (user : option string) : Eff bool :=
  match user with
  | None => ret false
  | Some _ =>
      setIsFormatting true ;;
      setError None ;;
      setStatus "Formatting documents..." ;;
      call "formatDocumentsData" [] ;;
      ret true
  end.

(** [handleFormatDocuments], from the [await] on. *)
Definition handleFormatDocuments_resume (o : Settlement) : Eff unit :=
  try_finally
    (try_catch
       (result <- await o ;;
        if success result
        then setStatus "Documents formatted successfully"
        else setError (Some (or_else (message result) "Failed to format documents")))
       (fun err =>
          console_error "Error formatting documents:" ;;
          setError (Some ("Formatting failed: "
                          ++ or_else (err_message err) "Unknown error"))))
    (setIsFormatting false).

(** [handleRetryProcessing] (lines 104-124), before the [await]. *)
Definition handleRetryProcessing_enter (user : option string) (documentId : string)
  : Eff bool :=
  match user with
  | None => ret false
  | Some _ =>
      setStatus ("Retrying processing for document " ++ documentId ++ "...") ;;
      setError None ;;
      call "formatDocumentsData" [] ;;
      ret true
  end.

(** [handleRetryProcessing], from the [await] on. *)
Definition handleRetryProcessing_resume (o : Settlement) : Eff unit :=
  try_catch
    (result <- await o ;;
     if success result
     then setStatus "Document processing initiated successfully"
     else setError (Some (or_else (message result) "Failed to process document")))
    (fun err =>
       console_error "Error processing document:" ;;
       setError (Some ("Processing failed: "
                       ++ or_else (err_message err) "Unknown error"))).

(** A whole run of a handler whose call settles with [o]. *)
Definition handleFormatDocuments (user : option string) (o : Settlement) : Eff unit :=
  suspended <- handleFormatDocuments_enter user ;;
  if (suspended : bool) then handleFormatDocuments_resume o else ret tt.

Definition handleRetryProcessing (user : option string) (documentId : string)
  (o : Settlement) : Eff unit :=
  suspended <- handleRetryProcessing_enter user documentId ;;
  if (suspended : bool) then handleRetryProcessing_resume o else ret tt.

(** ** The snapshot listener (lines 36-52) *)

Definition onSnapshot_listener (env : Env) (docs : list Doc.t) : Eff unit :=
  setDocuments docs ;;
  if allProcessed docs && hasOnProcessingComplete env
  then onProcessingComplete
  else ret tt.

(** ** The component as an event-driven system

    Handlers run to completion on a single-threaded event loop; between two
    events any number of issued calls may still be awaiting their answer. *)

(** A suspended handler: which continuation runs when its call settles. *)
Inductive Awaiting :=
| AwaitFormat
| AwaitRetry (documentId : string).

Record Sys := mkSys {
  world : World;
  pending : list Awaiting
}.

Inductive Event :=
| Snapshot (docs : list Doc.t)          (* the store delivers a snapshot *)
| ClickFormat                           (* the "Format Documents" button *)
| ClickRetry (documentId : string)      (* a row's "Process"/"Retry" button *)
| Settle (n : nat) (o : Settlement).    (* the n-th outstanding call settles *)

(** The format button is rendered when [canFormat] and carries
    [disabled={isFormatting}] (lines 218-226). *)
Definition formatButton_enabled (s : State) : bool :=
  canFormat (documents s) (isFormatting s) && negb (isFormatting s).

(** A row shows a button bound to [handleRetryProcessing(doc.id)] when its
    status is [uploaded] or [error] (lines 256-271). *)
Definition retryButton_rendered (s : State) (documentId : string) : bool :=
  existsb
    (fun doc =>
       String.eqb (Doc.id doc) documentId
       && (String.eqb (Doc.status doc) "uploaded" || String.eqb (Doc.status doc) "error"))
    (documents s).

Definition report {A} (r : Completion A * World) : World :=
  match r with
  | (Normal _, w) => w
  | (Throw err, w) =>
      {| view := view w; invoked := invoked w; console := console w;
         completions := completions w; unhandled := unhandled w ++ [err] |}
  end.

Definition suspended_on {A} (r : Completion bool * A) (a : Awaiting) : list Awaiting :=
  match r with
  | (Normal true, _) => [a]
  | _ => []
  end.

Definition remove_nth {A} (n : nat) (l : list A) : list A :=
  firstn n l ++ skipn (S n) l.

Definition resume (a : Awaiting) (o : Settlement) : Eff unit :=
  match a with
  | AwaitFormat => handleFormatDocuments_resume o
  | AwaitRetry _ => handleRetryProcessing_resume o
  end.

Definition step (env : Env) (s : Sys) (ev : Event) : Sys :=
  match ev with
  | Snapshot docs =>
      match currentUser env with
      | None => s                       (* the effect never subscribed *)
      | Some _ =>
          {| world := report (onSnapshot_listener env docs (world s));
             pending := pending s |}
      end
  | ClickFormat =>
      if formatButton_enabled (view (world s)) then
        let r := handleFormatDocuments_enter (currentUser env) (world s) in
        {| world := report r; pending := pending s ++ suspended_on r AwaitFormat |}
      else s
  | ClickRetry documentId =>
      if retryButton_rendered (view (world s)) documentId then
        let r := handleRetryProcessing_enter (currentUser env) documentId (world s) in
        {| world := report r;
           pending := pending s ++ suspended_on r (AwaitRetry documentId) |}
      else s
  | Settle n o =>
      match nth_error (pending s) n with
      | None => s
      | Some a =>
          {| world := report (resume a o (world s));
             pending := remove_nth n (pending s) |}
      end
  end.

Definition run (env : Env) (s : Sys) (evs : list Event) : Sys :=
  fold_left (step env) evs s.

(** The state right after mounting. *)
Definition init : Sys :=
  {| world := {| view := {| documents := []; isFormatting := false;
                            error := None; status := "" |};
                 invoked := []; console := []; completions := 0; unhandled := [] |};
     pending := [] |}.

Definition is_format (a : Awaiting) : bool :=
  match a with AwaitFormat => true | AwaitRetry _ => false end.

(** Outstanding calls issued by [handleFormatDocuments]. *)
Definition outstanding_format (s : Sys) : nat :=
  List.length (filter is_format (pending s)).

(** Outstanding calls, whoever issued them. *)
Definition outstanding (s : Sys) : nat := List.length (pending s).

(** Number of snapshots of a sequence that enter the all-processed state
    coming from a snapshot (or from the initial, empty state) that was not. *)
Fixpoint transitions (prev : bool) (snaps : list (list Doc.t)) : nat :=
  match snaps with
  | [] => 0
  | docs :: rest =>
      (if allProcessed docs && negb prev then 1 else 0)
      + transitions (allProcessed docs) rest
  end.

(** Number of snapshots of a sequence that are all-processed. *)
Definition count_allProcessed (snaps : list (list Doc.t)) : nat :=
  List.length (filter allProcessed snaps).

(** A record with the given identifier, status and type. *)
Definition record (i st ty : string) : Doc.t :=
  {| Doc.id := i; Doc.documentType := ty; Doc.status := st;
     Doc.name := i; Doc.error := None |}.

Definition signed_in (uid : string) : Env :=
  {| currentUser := Some uid; hasOnProcessingComplete := true |}.

(** ** The access rules

    [service cloud.firestore], [rules_version = '2'].  A request names a
    document by its path below [/databases/{database}/documents]; it is
    allowed when some [match] block whose pattern matches the whole path has
    an [allow] statement for the request's method whose condition holds. *)

Module Rules.

Inductive Method := Get | List | Create | Update | Delete.

Definition Method_eqb (a b : Method) : bool :=
  match a, b with
  | Get, Get | List, List | Create, Create | Update, Update | Delete, Delete => true
  | _, _ => false
  end.

(** The method groups [read] and [write] of the rules language. *)
Definition read : list Method := [Get; List].
Definition write : list Method := [Create; Update; Delete].

(** The stored state the rules can consult: does a document exist at this
    path of this database? *)
Definition Store : Type := string -> list string -> bool.

(** [request.auth] is [null] or carries the principal's [uid]. *)
Record Request := mkRequest {
  database : string;
  auth : option string;
  method : Method;
  path : list string
}.

Inductive Segment :=
| Lit (s : string)            (* /users *)
| Wild (x : string)           (* /{userId} *)
| RecWild (x : string).       (* /{document=**} *)

Definition Bindings : Type := list (string * list string).

(** Matching of a whole path; version 2 lets [{x=**}] take zero or more
    segments. *)
Fixpoint match_path (pat : list Segment) (p : list string) : option Bindings :=
  match pat, p with
  | [], [] => Some []
  | [RecWild x], _ => Some [(x, p)]
  | Lit s :: pat', seg :: p' =>
      if String.eqb s seg then match_path pat' p' else None
  | Wild x :: pat', seg :: p' =>
      match match_path pat' p' with
      | Some b => Some ((x, [seg]) :: b)
      | None => None
      end
  | _, _ => None
  end.

(** The value bound to a single-segment wildcard. *)
Fixpoint lookup (x : string) (b : Bindings) : string :=
  match b with
  | [] => ""
  | (y, v) :: b' => if String.eqb x y then hd "" v else lookup x b'
  end.

Definition Condition : Type := Store -> Request -> Bindings -> bool.

Record Allow := mkAllow {
  methods : list Method;
  condition : Condition
}.

Record Match := mkMatch {
  pattern : list Segment;
  allows : list Allow
}.

(** [function isAuthenticated()] *)
Definition isAuthenticated (req : Request) : bool :=
  match auth req with Some _ => true | None => false end.

(** [function isOwner(userId)] *)
Definition isOwner (req : Request) (userId : string) : bool :=
  isAuthenticated req
  && match auth req with Some uid => String.eqb uid userId | None => false end.

Definition if_false : Condition := fun _ _ _ => false.
Definition if_owner : Condition := fun _ req b => isOwner req (lookup "userId" b).

(** [isAuthenticated() && exists(/databases/$(database)/documents/users/$(request.auth.uid)/courses/$(courseId))] *)
Definition if_enrolled : Condition :=
  fun store req b =>
    isAuthenticated req
    && match auth req with
       | Some uid => store (database req) ["users"; uid; "courses"; lookup "courseId" b]
       | None => false
       end.

(** The [match] blocks of the rules file, nested patterns written out in
    full, in the order of the file. *)
Definition rules : list Match :=
  [ {| pattern := [Lit "users"; Wild "userId"];
       allows := [ {| methods := read ++ [Update]; condition := if_owner |};
                   {| methods := [Create]; condition := if_false |};
                   {| methods := [Delete]; condition := if_false |} ] |};
    {| pattern := [Lit "users"; Wild "userId"; Lit "documents"; Wild "documentType"];
       allows := [ {| methods := read; condition := if_owner |};
                   {| methods := write; condition := if_false |} ] |};
    {| pattern := [Lit "users"; Wild "userId"; Lit "formatted_data"; Wild "documentType"];
       allows := [ {| methods := read; condition := if_owner |};
                   {| methods := write; condition := if_false |} ] |};
    {| pattern := [Lit "users"; Wild "userId"; Lit "data"; Wild "dataId"];
       allows := [ {| methods := read; condition := if_owner |};
                   {| methods := write; condition := if_false |} ] |};
    {| pattern := [Lit "users"; Wild "userId"; Lit "predictions"; Wild "predictionId"];
       allows := [ {| methods := read; condition := if_owner |};
                   {| methods := write; condition := if_false |} ] |};
    {| pattern := [Lit "courses"; Wild "courseId"];
       allows := [ {| methods := read; condition := if_enrolled |};
                   {| methods := write; condition := if_false |} ] |};
    {| pattern := [RecWild "document"];
       allows := [ {| methods := read ++ write; condition := if_false |} ] |} ].

Definition allowed_by (store : Store) (req : Request) (m : Match) : bool :=
  match match_path (pattern m) (path req) with
  | None => false
  | Some b =>
      existsb
        (fun a => existsb (Method_eqb (method req)) (methods a)
                  && condition a store req b)
        (allows m)
  end.

Definition authorize (store : Store) (req : Request) : bool :=
  existsb (allowed_by store req) rules.

Definition is_read (m : Method) : bool := existsb (Method_eqb m) read.
Definition is_write (m : Method) : bool := existsb (Method_eqb m) write.

End Rules.

(** ** Auxiliary notions and the concrete inputs used below *)

(** The statuses that have a bucket in [documentCounts]. *)
Definition bucketed (doc : Doc.t) : bool :=
  String.eqb (Doc.status doc) "uploaded"
  || String.eqb (Doc.status doc) "extracted"
  || String.eqb (Doc.status doc) "processed"
  || String.eqb (Doc.status doc) "error".

Definition snapshot_pending : list Doc.t := [record "d1" "pending" "syllabus"].

Definition snapshot_mixed : list Doc.t :=
  [record "d1" "uploaded" "syllabus"; record "d2" "error" "grades";
   record "d3" "processed" "transcript"].

(** Twenty records, three of them extracted. *)
Definition snapshot_20_3 : list Doc.t :=
  repeat (record "x" "extracted" "syllabus") 3
  ++ repeat (record "y" "uploaded" "grades") 17.

Definition scenarioB : list Doc.t :=
  [record "a" "extracted" "syllabus"; record "b" "processed" "transcript"].

Definition snapshot_done : list Doc.t := [record "d1" "processed" "syllabus"].

(** The flag mirrors the outstanding calls of [handleFormatDocuments]. *)
Definition flag_tracks_format (s : Sys) : Prop :=
  outstanding_format s = if isFormatting (view (world s)) then 1 else 0.

Definition snapshot_two : list Doc.t :=
  [record "d1" "extracted" "syllabus"; record "d2" "uploaded" "grades"].

(** A formatting call is in flight: the flag is set and the call awaits its
    answer. *)
Definition formatting_in_flight : Sys :=
  run (signed_in "u") init [Snapshot snapshot_two; ClickFormat].

(** The one call both handlers make: [formatDocumentsData({})]. *)
Definition formatDocumentsData_call : Invocation :=
  {| callable := "formatDocumentsData"; data := [] |}.

(** The message shown when the call of [handleFormatDocuments] throws. *)
Definition formatting_failed (err : JsError) : string :=
  "Formatting failed: " ++ or_else (err_message err) "Unknown error".

(** The world once [handleFormatDocuments] has handled an answer
    [{ success: false, message }]. *)
Definition after_refusal (msg : option string) (w : World) : World :=
  snd (handleFormatDocuments_resume
         (Fulfilled {| success := false; message := msg |}) w).

(** Two thrown values with different messages. *)
Definition timeout_error : JsError := {| err_message := Some "timeout" |}.
Definition quota_error : JsError := {| err_message := Some "quota exceeded" |}.

(** A format call and a retry call are both awaiting their answer. *)
Definition format_and_retry_in_flight : Sys :=
  run (signed_in "u") init [Snapshot snapshot_two; ClickFormat; ClickRetry "d2"].

(** The world once [handleFormatDocuments] has handled a rejected call. *)
Definition after_rejection (err : JsError) (w : World) : World :=
  snd (handleFormatDocuments_resume (Rejected err) w).

(** A store holding the single enrollment record [users/alice/courses/cs101]. *)
Definition enrolled_store : Rules.Store :=
  fun _ p =>
    match p with
    | [a; u; b; c] =>
        String.eqb a "users" && String.eqb u "alice"
        && String.eqb b "courses" && String.eqb c "cs101"
    | _ => false
    end.

(** ** What the rules permit, shape by shape *)

(** The subcollections of [users/{userId}] that have a [match] block. *)
Definition owned_subcollections : list string :=
  ["documents"; "formatted_data"; "data"; "predictions"].

(** A request as the rules file reads: made by an authenticated principal
    and either a read or update of the principal's own profile, or a read in
    one of the principal's own subcollections, or a read of a course the
    principal has an enrollment record for. *)
Definition permitted (store : Rules.Store) (req : Rules.Request) : Prop :=
  exists uid,
    Rules.auth req = Some uid
    /\ ((Rules.path req = ["users"; uid]
         /\ (Rules.is_read (Rules.method req) = true
             \/ Rules.method req = Rules.Update))
        \/ (exists sub x,
              Rules.path req = ["users"; uid; sub; x]
              /\ In sub owned_subcollections
              /\ Rules.is_read (Rules.method req) = true)
        \/ (exists courseId,
              Rules.path req = ["courses"; courseId]
              /\ Rules.is_read (Rules.method req) = true
              /\ store (Rules.database req) ["users"; uid; "courses"; courseId] = true)).

(** ** Notions used to state what the event-driven system does *)

(** The snapshot that was delivered last in a sequence of events ([before]
    when none was). *)
Definition latest_snapshot (evs : list Event) (before : list Doc.t) : list Doc.t :=
  fold_left
    (fun docs ev => match ev with Snapshot d => d | _ => docs end)
    evs before.

(** The snapshots delivered by a sequence of events, in order. *)
Fixpoint snapshots_of (evs : list Event) : list (list Doc.t) :=
  match evs with
  | [] => []
  | Snapshot d :: rest => d :: snapshots_of rest
  | _ :: rest => snapshots_of rest
  end.

(** The listener runs its callback only when somebody is signed in and the
    [onProcessingComplete] prop was passed. *)
Definition notifies (env : Env) : bool :=
  match currentUser env with
  | Some _ => hasOnProcessingComplete env
  | None => false
  end.

(** What holds of the world however the events interleave. *)
Definition well_behaved (s : Sys) : Prop :=
  unhandled (world s) = []
  /\ Forall (fun c => c = formatDocumentsData_call) (invoked (world s))
  /\ outstanding s <= List.length (invoked (world s)).

(** The progress as a function of the number n of records and the number e
    of extracted or processed ones (n > 0). *)
Definition progress_of (n e : nat) : Z :=
  Number.round
    (Number.mul
       (Number.div (Number.of_Z (Z.of_nat (n + e))) (Number.of_Z (Z.of_nat (n * 2))))
       (Number.of_Z 100)).

(** 100 * (n + e) / (2 * n) lies exactly half-way between two integers. *)
Definition is_tie (n e : nat) : bool :=
  (2 * ((100 * Z.of_nat (n + e)) mod Z.of_nat (2 * n)) =? Z.of_nat (2 * n))%Z.

Definition progress_entry_ok (n e : nat) : bool :=
  let p := progress_of n e in
  (50 <=? p)%Z && (p <=? 100)%Z
  && Bool.eqb (p =? 100)%Z (e =? n)
  && (if e <? n then (p <=? progress_of n (S e))%Z else true)
  && if is_tie n e
     then (p =? spec_progressPercent n e)%Z || (p =? spec_progressPercent n e - 1)%Z
     else (p =? spec_progressPercent n e)%Z.

(** All pairs 0 <= e <= n, 1 <= n <= bound. *)
Definition progress_table_ok (bound : nat) : bool :=
  forallb
    (fun n => forallb (fun e => progress_entry_ok (S n) e) (seq 0 (S (S n))))
    (seq 0 bound).

(** The world after a whole run of a handler by a signed-in principal. *)
Definition after_format (uid : string) (o : Settlement) (w : World) : World :=
  snd (handleFormatDocuments (Some uid) o w).

Definition after_retry (uid documentId : string) (o : Settlement) (w : World) : World :=
  snd (handleRetryProcessing (Some uid) documentId o w).

(** ** The binary64 form of a counter *)

(** The mantissa of the double of a positive integer below 2^53: the integer
    shifted to 53 digits. *)
Definition mantissa (p : positive) : positive :=
  match (53 - Zpos (digits2_pos p))%Z with
  | Zpos k => Pos.iter xO p k
  | _ => p
  end.

(** * Properties *)

(** ** Counting *)

Lemma count_status_cons (s : string) (doc : Doc.t) (docs : list Doc.t) :
  count_status s (doc :: docs)
  = (if String.eqb (Doc.status doc) s then 1 else 0) + count_status s docs.
Proof.
  unfold count_status. simpl.
  destruct (String.eqb (Doc.status doc) s); reflexivity.
Qed.

Lemma sum_counts_bucketed (docs : list Doc.t) :
  sum_counts (documentCounts docs) = List.length (filter bucketed docs).
Proof.
  unfold sum_counts, documentCounts. simpl.
  induction docs as [|doc docs IH]; [reflexivity|].
  rewrite !count_status_cons. simpl filter. unfold bucketed at 1.
  destruct (String.eqb_spec (Doc.status doc) "uploaded") as [E|_];
    [rewrite E; simpl; lia|].
  destruct (String.eqb_spec (Doc.status doc) "extracted") as [E|_];
    [rewrite E; simpl; lia|].
  destruct (String.eqb_spec (Doc.status doc) "processed") as [E|_];
    [rewrite E; simpl; lia|].
  destruct (String.eqb_spec (Doc.status doc) "error") as [E|_];
    simpl; lia.
Qed.

Lemma filter_all {A} (f : A -> bool) (l : list A) :
  forallb f l = true -> filter f l = l.
Proof.
  induction l as [|a l IH]; simpl; [reflexivity|].
  intros H. apply andb_true_iff in H as [Ha Hl].
  rewrite Ha, IH by assumption. reflexivity.
Qed.

(** C6, as stated, fails: a record whose status is none of the four falls
    in no bucket, so the buckets of a one-record snapshot can sum to 0. *)
Lemma documentCounts_sum_counterexample :
  sum_counts (documentCounts snapshot_pending) = 0
  /\ List.length snapshot_pending = 1
  /\ sum_counts (documentCounts snapshot_pending) <> List.length snapshot_pending.
Proof. vm_compute. repeat split; discriminate. Qed.

(** C6 (amended): the four buckets of [documentCounts] sum to the number of
    records whose status is one of uploaded, extracted, processed, error;
    when every record of the snapshot has such a status, the sum is
    [recordCount]. *)
Theorem documentCounts_sum (docs : list Doc.t) :
  sum_counts (documentCounts docs) = List.length (filter bucketed docs)
  /\ (forallb bucketed docs = true ->
      sum_counts (documentCounts docs) = List.length docs).
Proof.
  split; [apply sum_counts_bucketed|].
  intros H. rewrite sum_counts_bucketed, (filter_all _ _ H). reflexivity.
Qed.

Lemma documentCounts_sum_witness :
  forallb bucketed snapshot_mixed = true
  /\ sum_counts (documentCounts snapshot_mixed) = 3.
Proof.
  split; [reflexivity|].
  exact (proj2 (documentCounts_sum snapshot_mixed) eq_refl).
Defined.

(** ** Progress *)

Lemma completedSteps_from (docs : list Doc.t) (acc : nat) :
  fold_left
    (fun completed doc =>
       let completed := completed + 1 in
       if is_done doc then completed + 1 else completed)
    docs acc
  = acc + List.length docs + List.length (filter is_done docs).
Proof.
  revert acc. induction docs as [|doc docs IH]; intros acc; simpl; [lia|].
  rewrite IH. destruct (is_done doc); simpl; lia.
Qed.

(** The loop counts every record once and the extracted or processed ones
    once more: [completedSteps = n + e]. *)
Lemma completedSteps_spec (docs : list Doc.t) :
  completedSteps docs = List.length docs + List.length (filter is_done docs).
Proof. unfold completedSteps. rewrite completedSteps_from. reflexivity. Qed.

(** The progress depends on the snapshot only through n, the number of
    records, and e, the number of extracted or processed ones. *)
Lemma calculateProgress_n_e (docs : list Doc.t) :
  calculateProgress docs
  = if List.length docs =? 0 then 0%Z
    else Number.round
           (Number.mul
              (Number.div
                 (Number.of_Z (Z.of_nat (List.length docs
                                         + List.length (filter is_done docs))))
                 (Number.of_Z (Z.of_nat (List.length docs * 2))))
              (Number.of_Z 100)).
Proof. unfold calculateProgress. rewrite completedSteps_spec. reflexivity. Qed.

Lemma calculateProgress_nil : calculateProgress [] = 0%Z.
Proof. reflexivity. Qed.

(** C4: the code departs from the formula.  With n = 20 and e = 3 the exact
    value 100 * 23 / 40 is 57.5 and rounds to 58 (ties up, and ties to even
    alike); the code divides first, 23 / 40 is not a binary fraction, and the
    product with 100 is the double just below 57.5, which rounds to 57. *)
Theorem calculateProgress_20_3 :
  List.length snapshot_20_3 = 20
  /\ List.length (filter is_done snapshot_20_3) = 3
  /\ calculateProgress snapshot_20_3 = 57%Z
  /\ spec_progressPercent 20 3 = 58%Z
  /\ spec_progressPercent_half_even 20 3 = 58%Z.
Proof. vm_compute. repeat split. Qed.

(** C5, as stated, fails: both records of scenario B count as done, so the
    progress is not 75. *)
Lemma scenarioB_counterexample :
  ~ (calculateProgress scenarioB = 75%Z /\ canFormat scenarioB false = true).
Proof. vm_compute. intros [H _]. discriminate H. Qed.

(** C5 (amended): for the snapshot of scenario B with no formatting in
    flight, [progressPercent] is 100 (4 completed steps out of 4) and
    [canFormat] is true. *)
Theorem scenarioB_progress :
  calculateProgress scenarioB = 100%Z /\ canFormat scenarioB false = true.
Proof. vm_compute. split; reflexivity. Qed.

(** ** The completion notification *)

Lemma run_snapshots_completions (uid : string) (snaps : list (list Doc.t)) (s : Sys) :
  completions (world (run (signed_in uid) s (map Snapshot snaps)))
  = completions (world s) + count_allProcessed snaps.
Proof.
  revert s. unfold count_allProcessed.
  induction snaps as [|docs snaps IH]; intros s; [simpl; lia|].
  change (run (signed_in uid) s (map Snapshot (docs :: snaps)))
    with (run (signed_in uid) (step (signed_in uid) s (Snapshot docs))
            (map Snapshot snaps)).
  rewrite IH. simpl. unfold onSnapshot_listener.
  destruct (allProcessed docs); simpl; lia.
Qed.

Lemma transitions_le_count (snaps : list (list Doc.t)) (prev : bool) :
  transitions prev snaps <= count_allProcessed snaps.
Proof.
  revert prev. unfold count_allProcessed.
  induction snaps as [|docs snaps IH]; intros prev; simpl; [lia|].
  specialize (IH (allProcessed docs)).
  destruct (allProcessed docs), prev; simpl; lia.
Qed.

(** C1, as stated, fails: the same all-processed snapshot delivered twice
    is one transition, and the callback runs twice. *)
Lemma notification_counterexample :
  transitions false [snapshot_done; snapshot_done] = 1
  /\ completions (world (run (signed_in "u") init
                           [Snapshot snapshot_done; Snapshot snapshot_done])) = 2.
Proof. vm_compute. split; reflexivity. Qed.

(** C1 (amended): with a signed-in principal and the callback passed, the
    completion notification is emitted once for every delivered snapshot
    that is all-processed, whatever the snapshot before it was: its count
    over a sequence is the number of all-processed snapshots, which is at
    least the number of transitions into the all-processed state. *)
Theorem notification_per_allProcessed_snapshot (uid : string) (snaps : list (list Doc.t)) :
  completions (world (run (signed_in uid) init (map Snapshot snaps)))
  = count_allProcessed snaps
  /\ transitions false snaps <= count_allProcessed snaps.
Proof.
  split; [|apply transitions_le_count].
  rewrite run_snapshots_completions. reflexivity.
Qed.

(** ** The in-flight flag *)

Lemma filter_remove_nth {A} (f : A -> bool) (l : list A) (n : nat) (a : A) :
  nth_error l n = Some a ->
  List.length (filter f l)
  = (if f a then 1 else 0) + List.length (filter f (remove_nth n l)).
Proof.
  revert n. unfold remove_nth.
  induction l as [|x l IH]; intros [|n] H; simpl in H; try discriminate.
  - injection H as ->. simpl. destruct (f a); reflexivity.
  - specialize (IH n H). simpl firstn. simpl skipn in *. simpl.
    destruct (f x); simpl; rewrite IH; destruct (f a); lia.
Qed.

Lemma filter_length_app {A} (f : A -> bool) (l l' : list A) :
  List.length (filter f (l ++ l')) = List.length (filter f l) + List.length (filter f l').
Proof. rewrite filter_app, length_app. reflexivity. Qed.

Lemma step_flag_tracks_format (env : Env) (s : Sys) (ev : Event) :
  flag_tracks_format s -> flag_tracks_format (step env s ev).
Proof.
  unfold flag_tracks_format, outstanding_format. intros Inv.
  destruct ev as [docs| |documentId|n o]; simpl.
  - destruct (currentUser env); [|exact Inv].
    unfold onSnapshot_listener.
    destruct (allProcessed docs && hasOnProcessingComplete env); simpl; exact Inv.
  - destruct (formatButton_enabled (view (world s))) eqn:En; [|exact Inv].
    unfold formatButton_enabled in En.
    apply andb_true_iff in En as [_ En]. apply negb_true_iff in En.
    rewrite En in Inv.
    destruct (currentUser env); simpl; rewrite filter_length_app, Inv; simpl.
    + reflexivity.
    + rewrite En. reflexivity.
  - destruct (retryButton_rendered (view (world s)) documentId); [|exact Inv].
    destruct (currentUser env); simpl; rewrite filter_length_app, Inv; simpl; lia.
  - destruct (nth_error (pending s) n) as [a|] eqn:Hn; [|exact Inv].
    rewrite (filter_remove_nth is_format _ _ _ Hn) in Inv. simpl.
    destruct a as [|documentId]; simpl in Inv.
    + destruct o as [[[|] msg]|err]; simpl;
        destruct (isFormatting (view (world s))); lia.
    + destruct o as [[[|] msg]|err]; simpl; exact Inv.
Qed.

Lemma run_flag_tracks_format (env : Env) (evs : list Event) (s : Sys) :
  flag_tracks_format s -> flag_tracks_format (run env s evs).
Proof.
  revert s. induction evs as [|ev evs IH]; intros s Inv; simpl; [exact Inv|].
  apply IH, step_flag_tracks_format, Inv.
Qed.

(** C2, as stated, fails: neither handler looks at [isFormatting].  While
    the flag is set, a call of either handler issues one more call of
    [formatDocumentsData]; pressing the retry button of the uploaded row
    leaves two calls outstanding. *)
Lemma in_flight_guard_counterexample :
  isFormatting (view (world formatting_in_flight)) = true
  /\ List.length (invoked (world formatting_in_flight)) = 1
  /\ List.length
       (invoked (snd (handleFormatDocuments_enter (Some "u")
                        (world formatting_in_flight)))) = 2
  /\ List.length
       (invoked (snd (handleRetryProcessing_enter (Some "u") "d2"
                        (world formatting_in_flight)))) = 2
  /\ outstanding (step (signed_in "u") formatting_in_flight (ClickRetry "d2")) = 2.
Proof. vm_compute. repeat split. Qed.

(** C2 (amended): the guard of [requestFormatting] is in the view, not in
    the handler.  The "Format Documents" button is enabled only while
    [canFormat] holds, hence only while [isFormatting] is false; driven
    through the view, at most one call issued by [handleFormatDocuments] is
    outstanding at any time, the flag is set exactly while there is one, and
    the button is enabled only when there is none. *)
Theorem one_format_call_outstanding (env : Env) (evs : list Event) :
  outstanding_format (run env init evs) <= 1
  /\ (isFormatting (view (world (run env init evs))) = true
      <-> outstanding_format (run env init evs) = 1)
  /\ (formatButton_enabled (view (world (run env init evs))) = true ->
      outstanding_format (run env init evs) = 0).
Proof.
  assert (Inv : flag_tracks_format (run env init evs))
    by (apply run_flag_tracks_format; reflexivity).
  unfold flag_tracks_format in Inv. unfold formatButton_enabled.
  destruct (isFormatting (view (world (run env init evs)))); rewrite Inv.
  - repeat split; auto. rewrite andb_false_r. discriminate.
  - repeat split; auto; discriminate.
Qed.

Lemma one_format_call_outstanding_witness :
  formatButton_enabled
    (view (world (run (signed_in "u") init [Snapshot snapshot_two]))) = true
  /\ outstanding_format (run (signed_in "u") init [Snapshot snapshot_two]) = 0.
Proof.
  split; [reflexivity|].
  exact (proj2 (proj2 (one_format_call_outstanding (signed_in "u")
                         [Snapshot snapshot_two])) eq_refl).
Defined.

(** ** The handlers and the external function *)

(** C7, as stated, fails: a rejected call is not shown as a
    [{ success: false }] answer with a generic message.  Such an answer
    shows 'Failed to format documents'; a rejection shows 'Formatting
    failed: ' followed by the text of the thrown value, so two different
    failures show two different texts. *)
Lemma format_rejection_counterexample :
  error (view (after_rejection timeout_error (world formatting_in_flight)))
  = Some "Formatting failed: timeout"
  /\ error (view (after_refusal None (world formatting_in_flight)))
     = Some "Failed to format documents"
  /\ view (after_rejection timeout_error (world formatting_in_flight))
     <> view (after_refusal None (world formatting_in_flight))
  /\ error (view (after_rejection quota_error (world formatting_in_flight)))
     = Some "Formatting failed: quota exceeded"
  /\ view (after_rejection timeout_error (world formatting_in_flight))
     <> view (after_rejection quota_error (world formatting_in_flight)).
Proof. vm_compute. repeat split; discriminate. Qed.

(** C7 (amended): when the call made by [handleFormatDocuments] is
    rejected, the handler catches it and completes normally, nothing is
    left uncaught; the error shown is 'Formatting failed: ' followed by the
    message of the thrown value ('Unknown error' when it has none), which is
    never the text a [{ success: false }] answer without message shows; as
    after a [{ success: false }] answer, whatever its message, the in-flight
    flag is cleared and the status line, the documents, the issued calls and
    the notification count are as they were; and the listener still takes
    the next snapshot. *)
Theorem format_rejection_is_caught
  (err : JsError) (msg : option string) (w : World) (env : Env) (docs : list Doc.t) :
  fst (handleFormatDocuments_resume (Rejected err) w) = Normal tt
  /\ report (handleFormatDocuments_resume (Rejected err) w) = after_rejection err w
  /\ unhandled (after_rejection err w) = unhandled w
  /\ error (view (after_rejection err w)) = Some (formatting_failed err)
  /\ formatting_failed err <> ""
  /\ error (view (after_rejection err w)) <> error (view (after_refusal None w))
  /\ isFormatting (view (after_rejection err w)) = false
  /\ isFormatting (view (after_refusal msg w)) = false
  /\ status (view (after_rejection err w)) = status (view (after_refusal msg w))
  /\ status (view (after_rejection err w)) = status (view w)
  /\ documents (view (after_rejection err w)) = documents (view w)
  /\ invoked (after_rejection err w) = invoked w
  /\ completions (after_rejection err w) = completions w
  /\ fst (onSnapshot_listener env docs (after_rejection err w)) = Normal tt
  /\ documents (view (snd (onSnapshot_listener env docs (after_rejection err w))))
     = docs.
Proof.
  unfold after_rejection, after_refusal. simpl. repeat split; try discriminate.
  - unfold onSnapshot_listener, bind. simpl.
    destruct (allProcessed docs && hasOnProcessingComplete env); reflexivity.
  - unfold onSnapshot_listener, bind. simpl.
    destruct (allProcessed docs && hasOnProcessingComplete env); reflexivity.
Qed.

(** C8: for every document identifier, [handleRetryProcessing] issues the
    very call [handleFormatDocuments] issues, the single call
    [formatDocumentsData({})]; the identifier is not part of it. *)
Theorem retry_is_whole_batch (uid documentId : string) (w : World) :
  invoked (snd (handleFormatDocuments_enter (Some uid) w))
  = (invoked w ++ [formatDocumentsData_call])%list
  /\ invoked (snd (handleRetryProcessing_enter (Some uid) documentId w))
     = (invoked w ++ [formatDocumentsData_call])%list
  /\ fst (handleFormatDocuments_enter (Some uid) w) = Normal true
  /\ fst (handleRetryProcessing_enter (Some uid) documentId w) = Normal true.
Proof. repeat split. Qed.

(** C10: without a signed-in principal both handlers return at once: no
    call is issued, nothing is awaited and the world (error, status,
    in-flight flag, documents, issued calls) is unchanged. *)
Theorem signed_out_handlers_do_nothing
  (documentId : string) (o : Settlement) (w : World) :
  handleFormatDocuments_enter None w = (Normal false, w)
  /\ handleRetryProcessing_enter None documentId w = (Normal false, w)
  /\ handleFormatDocuments None o w = (Normal tt, w)
  /\ handleRetryProcessing None documentId o w = (Normal tt, w).
Proof. repeat split. Qed.

(** ** The access rules *)

Section AccessRules.
Import Rules.
Variable store : Store.

(** C3: on [users/{A}/documents/{x}] a request is allowed exactly when it
    is a read made by the signed-in principal [A]: reads by another
    principal or without authentication are denied, and so is every
    write, the owner's included. *)
Theorem documents_read_by_owner_only
  (db A x : string) (who : option string) (m : Method) :
  authorize store
    {| database := db; auth := who; method := m;
       path := ["users"; A; "documents"; x] |} = true
  <-> is_read m = true /\ who = Some A.
Proof.
  unfold authorize, allowed_by. simpl.
  unfold if_owner, if_false, isOwner, isAuthenticated. simpl.
  rewrite !andb_false_r, !orb_false_r.
  destruct who as [uid|]; simpl.
  - rewrite andb_true_iff, String.eqb_eq. unfold is_read. simpl.
    rewrite orb_false_r.
    split; intros [H1 H2]; split; congruence.
  - rewrite andb_false_r. split; [discriminate|intros [_ H]; discriminate].
Qed.

(** C9: on [courses/{courseId}] a request is allowed exactly when it is a
    read by an authenticated principal for whom the enrollment record
    [users/{principal}/courses/{courseId}] exists; every write is
    denied. *)
Theorem courses_read_by_enrolled_only
  (db courseId : string) (who : option string) (m : Method) :
  authorize store
    {| database := db; auth := who; method := m;
       path := ["courses"; courseId] |} = true
  <-> is_read m = true
      /\ exists uid, who = Some uid
                     /\ store db ["users"; uid; "courses"; courseId] = true.
Proof.
  unfold authorize, allowed_by. simpl.
  unfold if_enrolled, if_false, isAuthenticated. simpl.
  rewrite !andb_false_r, !orb_false_r.
  destruct who as [uid|]; simpl.
  - rewrite andb_true_iff. unfold is_read. simpl.
    rewrite orb_false_r.
    split.
    + intros [H1 H2]. split; [exact H1|]. exists uid. split; [reflexivity|exact H2].
    + intros [H1 [uid' [E H2]]]. injection E as <-. split; assumption.
  - rewrite andb_false_r. split; [discriminate|].
    intros [_ [uid [E _]]]. discriminate.
Qed.
End AccessRules.

Lemma documents_read_by_owner_only_witness :
  Rules.authorize enrolled_store
    {| Rules.database := "(default)"; Rules.auth := Some "alice";
       Rules.method := Rules.Get;
       Rules.path := ["users"; "alice"; "documents"; "syllabus"] |} = true.
Proof.
  apply (proj2 (documents_read_by_owner_only enrolled_store "(default)" "alice"
                  "syllabus" (Some "alice") Rules.Get)).
  split; reflexivity.
Defined.

Lemma courses_read_by_enrolled_only_witness :
  Rules.authorize enrolled_store
    {| Rules.database := "(default)"; Rules.auth := Some "alice";
       Rules.method := Rules.List;
       Rules.path := ["courses"; "cs101"] |} = true.
Proof.
  apply (proj2 (courses_read_by_enrolled_only enrolled_store "(default)" "cs101"
                  (Some "alice") Rules.List)).
  split; [reflexivity|]. exists "alice". split; reflexivity.
Defined.
(** ** Derived values of a snapshot *)

Lemma filter_length_Permutation {A} (f : A -> bool) (l l' : list A) :
  Permutation l l' -> List.length (filter f l) = List.length (filter f l').
Proof.
  induction 1 as [|x l l' _ IH|x y l|l l' l'' _ IH1 _ IH2]; simpl.
  - reflexivity.
  - destruct (f x); simpl; rewrite IH; reflexivity.
  - destruct (f x), (f y); reflexivity.
  - rewrite IH1. exact IH2.
Qed.

Lemma forallb_Permutation {A} (f : A -> bool) (l l' : list A) :
  Permutation l l' -> forallb f l = forallb f l'.
Proof.
  induction 1 as [|x l l' _ IH|x y l|l l' l'' _ IH1 _ IH2]; simpl.
  - reflexivity.
  - rewrite IH. reflexivity.
  - destruct (f x), (f y); reflexivity.
  - rewrite IH1. exact IH2.
Qed.

(** X1: snapshots are unordered, and nothing derived from one depends on the
    order of its records: the counts by status and by type, the progress and
    the flags are the same for any rearrangement. *)
Theorem derived_values_ignore_order (docs docs' : list Doc.t) (busy : bool) :
  Permutation docs docs' ->
  documentCounts docs = documentCounts docs'
  /\ documentTypeCount docs = documentTypeCount docs'
  /\ hasMinimumDocuments docs = hasMinimumDocuments docs'
  /\ calculateProgress docs = calculateProgress docs'
  /\ canFormat docs busy = canFormat docs' busy
  /\ allProcessed docs = allProcessed docs'.
Proof.
  intros P.
  assert (Hc : documentCounts docs = documentCounts docs').
  { unfold documentCounts, count_status.
    rewrite !(filter_length_Permutation _ _ _ P). reflexivity. }
  assert (Ht : documentTypeCount docs = documentTypeCount docs').
  { unfold documentTypeCount, count_type.
    rewrite !(filter_length_Permutation _ _ _ P). reflexivity. }
  repeat split; try assumption.
  - unfold hasMinimumDocuments, hasSyllabus. rewrite Ht. reflexivity.
  - rewrite !calculateProgress_n_e.
    rewrite (Permutation_length P), (filter_length_Permutation _ _ _ P). reflexivity.
  - unfold canFormat. rewrite Hc. reflexivity.
  - unfold allProcessed.
    rewrite (Permutation_length P), (forallb_Permutation _ _ _ P). reflexivity.
Qed.

Lemma derived_values_ignore_order_witness :
  Permutation scenarioB (rev scenarioB)
  /\ calculateProgress scenarioB = calculateProgress (rev scenarioB).
Proof.
  split; [apply perm_swap|].
  exact (proj1 (proj2 (proj2 (proj2
           (derived_values_ignore_order scenarioB (rev scenarioB) false
              (perm_swap _ _ [])))))).
Defined.

Lemma filter_length_pos {A} (f : A -> bool) (l : list A) :
  (0 <? List.length (filter f l)) = existsb f l.
Proof.
  induction l as [|a l IH]; simpl; [reflexivity|].
  destruct (f a); simpl; [reflexivity|exact IH].
Qed.

(** X2: the two gates.  Processing is enabled as soon as one record is a
    syllabus, whatever else was uploaded; formatting is offered exactly when
    some record is extracted and no formatting is in flight. *)
Theorem gates (docs : list Doc.t) (busy : bool) :
  (hasMinimumDocuments docs = true
   <-> exists doc, In doc docs /\ Doc.documentType doc = "syllabus")
  /\ (canFormat docs busy = true
      <-> (exists doc, In doc docs /\ Doc.status doc = "extracted") /\ busy = false).
Proof.
  unfold hasMinimumDocuments, hasSyllabus, canFormat. simpl.
  unfold count_type, count_status. rewrite !filter_length_pos. split.
  - rewrite existsb_exists. split; intros [doc [Hin H]]; exists doc; split; trivial;
      apply String.eqb_eq; exact H.
  - rewrite andb_true_iff, existsb_exists, negb_true_iff.
    split; intros [[doc [Hin H]] Hb]; (split; [|exact Hb]); exists doc; split; trivial;
      apply String.eqb_eq; exact H.
Qed.

Lemma forallb_filter_none {A} (f g : A -> bool) (l : list A) :
  forallb f l = true -> (forall a, f a = true -> g a = false) -> filter g l = [].
Proof.
  intros Hall Hfg. induction l as [|a l IH]; simpl in *; [reflexivity|].
  apply andb_true_iff in Hall as [Ha Hl]. rewrite (Hfg a Ha). exact (IH Hl).
Qed.

Lemma forallb_existsb_none {A} (f g : A -> bool) (l : list A) :
  forallb f l = true -> (forall a, f a = true -> g a = false) -> existsb g l = false.
Proof.
  intros Hall Hfg. induction l as [|a l IH]; simpl in *; [reflexivity|].
  apply andb_true_iff in Hall as [Ha Hl]. rewrite (Hfg a Ha). exact (IH Hl).
Qed.

Lemma processed_excludes (doc : Doc.t) (s : string) :
  String.eqb (Doc.status doc) "processed" = true ->
  String.eqb "processed" s = false ->
  String.eqb (Doc.status doc) s = false.
Proof. intros H. apply String.eqb_eq in H. rewrite H. trivial. Qed.

(** X3: once a snapshot is all-processed, the view offers no action: every
    record is in the processed bucket, formatting is not offered and no row
    has a retry button. *)
Theorem allProcessed_offers_nothing (docs : list Doc.t) (busy : bool) (documentId : string) :
  allProcessed docs = true ->
  documentCounts docs
  = {| Counts.uploaded := 0; Counts.extracted := 0;
       Counts.processed := List.length docs; Counts.error := 0 |}
  /\ canFormat docs busy = false
  /\ retryButton_rendered
       {| documents := docs; isFormatting := busy; error := None; status := "" |}
       documentId = false.
Proof.
  unfold allProcessed. intros H. apply andb_true_iff in H as [_ H].
  assert (Hn : forall s, String.eqb "processed" s = false -> count_status s docs = 0).
  { intros s Hs. unfold count_status.
    rewrite (forallb_filter_none _ _ _ H); [reflexivity|].
    intros doc Hd. exact (processed_excludes doc s Hd Hs). }
  assert (Hc : documentCounts docs
               = {| Counts.uploaded := 0; Counts.extracted := 0;
                    Counts.processed := List.length docs; Counts.error := 0 |}).
  { unfold documentCounts.
    rewrite (Hn "uploaded"), (Hn "extracted"), (Hn "error") by reflexivity.
    unfold count_status. rewrite (filter_all _ _ H). reflexivity. }
  repeat split.
  - exact Hc.
  - unfold canFormat. rewrite Hc. reflexivity.
  - unfold retryButton_rendered. simpl.
    apply (forallb_existsb_none _ _ _ H). intros doc Hd.
    rewrite (processed_excludes doc "uploaded" Hd eq_refl).
    rewrite (processed_excludes doc "error" Hd eq_refl).
    apply andb_false_r.
Qed.

Lemma allProcessed_offers_nothing_witness :
  allProcessed snapshot_done = true
  /\ canFormat snapshot_done false = false.
Proof.
  split; [reflexivity|].
  exact (proj1 (proj2 (allProcessed_offers_nothing snapshot_done false "d1" eq_refl))).
Defined.

(** ** Progress in binary64 *)

Section Binary64.
Local Open Scope Z_scope.

Lemma digits2_pos_lower (p : positive) :
  2 ^ (Zpos (digits2_pos p) - 1) <= Zpos p.
Proof.
  induction p as [p IH|p IH|]; simpl digits2_pos.
  - rewrite Pos2Z.inj_succ. replace (Z.succ (Zpos (digits2_pos p)) - 1)
      with (Z.succ (Zpos (digits2_pos p) - 1)) by lia.
    rewrite Z.pow_succ_r by lia. lia.
  - rewrite Pos2Z.inj_succ. replace (Z.succ (Zpos (digits2_pos p)) - 1)
      with (Z.succ (Zpos (digits2_pos p) - 1)) by lia.
    rewrite Z.pow_succ_r by lia. lia.
  - simpl. lia.
Qed.

Lemma digits2_pos_le_53 (p : positive) :
  Zpos p < 2 ^ 53 -> Zpos (digits2_pos p) <= 53.
Proof.
  intros H. destruct (Z_le_gt_dec (Zpos (digits2_pos p)) 53) as [|Hgt]; [assumption|].
  exfalso. pose proof (digits2_pos_lower p) as Hl.
  assert (2 ^ 53 <= 2 ^ (Zpos (digits2_pos p) - 1)) by (apply Z.pow_le_mono_r; lia).
  lia.
Qed.

Lemma digits2_pos_iter_xO (p k : positive) :
  digits2_pos (Pos.iter xO p k) = (digits2_pos p + k)%positive.
Proof.
  induction k as [|k IH] using Pos.peano_ind.
  - simpl. lia.
  - rewrite Pos.iter_succ. simpl. rewrite IH. lia.
Qed.

Lemma shr_fexp_exact (m : positive) (e : Z) :
  digits2_pos m = 53%positive -> -1074 <= e ->
  shr_fexp 53 1024 (Zpos m) e loc_Exact
  = ({| shr_m := Zpos m; shr_r := false; shr_s := false |}, e).
Proof.
  intros Hd He. unfold shr_fexp. cbn [Zdigits2]. rewrite Hd.
  replace (fexp 53 1024 (53 + e) - e) with 0 by (unfold fexp, emin; lia).
  reflexivity.
Qed.

Lemma binary_round_aux_exact (s : bool) (m : positive) (e : Z) :
  digits2_pos m = 53%positive -> -1074 <= e <= 971 ->
  binary_round_aux 53 1024 s (Zpos m) e loc_Exact = S754_finite s m e.
Proof.
  intros Hd He. unfold binary_round_aux.
  rewrite (shr_fexp_exact m e Hd) by lia.
  cbn [shr_m loc_of_shr_record round_nearest_even].
  rewrite (shr_fexp_exact m e Hd) by lia.
  cbn [shr_m]. destruct (Z.leb_spec e (1024 - 53)); [reflexivity|lia].
Qed.

Lemma of_Z_pos (p : positive) :
  Zpos p < 2 ^ 53 ->
  Number.of_Z (Zpos p) = S754_finite false (mantissa p) (Zpos (digits2_pos p) - 53)
  /\ digits2_pos (mantissa p) = 53%positive.
Proof.
  intros H. apply digits2_pos_le_53 in H.
  unfold Number.of_Z, Number.prec, Number.emax, binary_normalize, binary_round, shl_align, mantissa.
  replace (fexp 53 1024 (Zpos (digits2_pos p) + 0)) with (Zpos (digits2_pos p) - 53)
    by (unfold fexp, emin; lia).
  rewrite Z.sub_0_r.
  destruct (Zpos (digits2_pos p) - 53) as [|k|k] eqn:E; try lia.
  - assert (Hd : digits2_pos p = 53%positive) by lia.
    replace (53 - Z.pos (digits2_pos p)) with 0 by lia.
    split; [|exact Hd]. apply binary_round_aux_exact; [exact Hd|lia].
  - replace (53 - Z.pos (digits2_pos p)) with (Zpos k) by lia.
    assert (Hd : digits2_pos (Pos.iter xO p k) = 53%positive)
      by (rewrite digits2_pos_iter_xO; lia).
    split; [|exact Hd]. apply binary_round_aux_exact; [exact Hd|lia].
Qed.

Lemma mantissa_double (p : positive) :
  Zpos p~0 < 2 ^ 53 -> mantissa p~0 = mantissa p.
Proof.
  intros H. apply digits2_pos_le_53 in H. unfold mantissa. simpl digits2_pos in *.
  rewrite Pos2Z.inj_succ in *.
  destruct (53 - Z.succ (Zpos (digits2_pos p))) as [|k|k] eqn:E; try lia.
  - replace (53 - Zpos (digits2_pos p)) with 1 by lia. reflexivity.
  - replace (53 - Zpos (digits2_pos p)) with (Zpos (Pos.succ k)) by lia.
    rewrite Pos.iter_succ_r. reflexivity.
Qed.

Lemma div_eucl_shift (m : positive) :
  Z.div_eucl (Z.shiftl (Zpos m) 53) (Zpos m) = (2 ^ 53, 0).
Proof.
  pose proof (Z.div_eucl_eq (Z.shiftl (Zpos m) 53) (Zpos m)) as _.
  assert (Hq : Z.shiftl (Zpos m) 53 / Zpos m = 2 ^ 53).
  { rewrite Z.shiftl_mul_pow2 by lia. rewrite Z.mul_comm. apply Z.div_mul. lia. }
  assert (Hr : Z.shiftl (Zpos m) 53 mod Zpos m = 0).
  { rewrite Z.shiftl_mul_pow2 by lia. rewrite Z.mul_comm. apply Z.mod_mul. lia. }
  unfold Z.div, Z.modulo in Hq, Hr.
  destruct (Z.div_eucl (Z.shiftl (Zpos m) 53) (Zpos m)) as [q r].
  simpl in Hq, Hr. subst. reflexivity.
Qed.

Lemma new_location_zero (m : Z) : new_location m 0 = loc_Exact.
Proof. unfold new_location. destruct (Z.even m); reflexivity. Qed.

(** x / x = 1 and x / 2x = 0.5, exactly. *)
Lemma SFdiv_same_mantissa (m : positive) (e1 e2 : Z) :
  digits2_pos m = 53%positive ->
  (e1 - e2 = 0 -> SFdiv 53 1024 (S754_finite false m e1) (S754_finite false m e2)
                  = S754_finite false 4503599627370496 (-52))
  /\ (e1 - e2 = -1 -> SFdiv 53 1024 (S754_finite false m e1) (S754_finite false m e2)
                      = S754_finite false 4503599627370496 (-53)).
Proof.
  intros Hd. split; intros He;
    unfold SFdiv, SFdiv_core_binary; simpl Zdigits2; rewrite Hd;
    replace (53 + e1 - (53 + e2)) with (e1 - e2) by lia; rewrite He;
    simpl Z.min; simpl Z.sub; cbv iota beta;
    rewrite div_eucl_shift, new_location_zero; reflexivity.
Qed.

Lemma of_nat_pos (n : nat) : (0 < n)%nat -> exists p, Z.of_nat n = Zpos p.
Proof.
  intros H. destruct (Z.of_nat n) as [|p|p] eqn:E; try lia. exists p. reflexivity.
Qed.

Lemma progress_of_all (n : nat) :
  (0 < n)%nat -> Z.of_nat n < 2 ^ 32 -> progress_of n n = 100.
Proof.
  intros Hn Hb. unfold progress_of.
  replace (n * 2)%nat with (n + n)%nat by lia.
  destruct (of_nat_pos (n + n)) as [p Hp]; [lia|]. rewrite Hp.
  destruct (of_Z_pos p) as [-> Hd]; [lia|].
  unfold Number.div, Number.prec, Number.emax.
  rewrite (proj1 (SFdiv_same_mantissa _ _ _ Hd)) by lia.
  reflexivity.
Qed.

Lemma progress_of_none (n : nat) :
  (0 < n)%nat -> Z.of_nat n < 2 ^ 32 -> progress_of n 0 = 50.
Proof.
  intros Hn Hb. unfold progress_of. rewrite Nat.add_0_r.
  destruct (of_nat_pos n) as [p Hp]; [lia|].
  replace (Z.of_nat (n * 2)) with (Zpos p~0) by lia. rewrite Hp.
  destruct (of_Z_pos p) as [-> Hd]; [lia|].
  destruct (of_Z_pos p~0) as [-> _]; [lia|].
  rewrite (mantissa_double p) by lia.
  unfold Number.div, Number.prec, Number.emax.
  rewrite (proj2 (SFdiv_same_mantissa _ _ _ Hd))
    by (simpl digits2_pos; rewrite Pos2Z.inj_succ; lia).
  reflexivity.
Qed.
End Binary64.

Lemma calculateProgress_progress_of (docs : list Doc.t) :
  docs <> [] ->
  calculateProgress docs
  = progress_of (List.length docs) (List.length (filter is_done docs)).
Proof.
  intros H. rewrite calculateProgress_n_e.
  destruct docs; [contradiction|reflexivity].
Qed.

Lemma filter_none {A} (f : A -> bool) (l : list A) :
  existsb f l = false -> filter f l = [].
Proof.
  induction l as [|a l IH]; simpl; [reflexivity|].
  destruct (f a); simpl; [discriminate|exact IH].
Qed.

Lemma filter_length_all {A} (f : A -> bool) (l : list A) :
  List.length (filter f l) = List.length l <-> forallb f l = true.
Proof.
  split.
  - induction l as [|a l IH]; simpl; [reflexivity|].
    pose proof (filter_length_le f l) as Hle.
    destruct (f a); simpl; intros H; [apply IH; lia|lia].
  - intros H. rewrite (filter_all _ _ H). reflexivity.
Qed.

(** X4: when every record of a snapshot is extracted or processed the
    progress is exactly 100, also when none of them is processed yet.  (An
    array has fewer than 2^32 elements.) *)
Theorem progress_all_done (docs : list Doc.t) :
  docs <> [] ->
  (Z.of_nat (List.length docs) < 2 ^ 32)%Z ->
  forallb is_done docs = true ->
  calculateProgress docs = 100%Z.
Proof.
  intros Hne Hb Hall. rewrite (calculateProgress_progress_of docs Hne).
  rewrite (filter_all _ _ Hall). apply progress_of_all; [|exact Hb].
  destruct docs; [contradiction|simpl; lia].
Qed.

Lemma progress_all_done_witness :
  scenarioB <> []
  /\ (Z.of_nat (List.length scenarioB) < 2 ^ 32)%Z
  /\ forallb is_done scenarioB = true
  /\ calculateProgress scenarioB = 100%Z.
Proof.
  assert (H1 : scenarioB <> []) by discriminate.
  assert (H2 : (Z.of_nat (List.length scenarioB) < 2 ^ 32)%Z) by reflexivity.
  exact (conj H1 (conj H2 (conj eq_refl (progress_all_done scenarioB H1 H2 eq_refl)))).
Defined.

(** X5: a non-empty snapshot in which no record is extracted or processed
    shows exactly 50: every listed record counts its upload step, so the
    bar never starts below half. *)
Theorem progress_none_done (docs : list Doc.t) :
  docs <> [] ->
  (Z.of_nat (List.length docs) < 2 ^ 32)%Z ->
  existsb is_done docs = false ->
  calculateProgress docs = 50%Z.
Proof.
  intros Hne Hb Hnone. rewrite (calculateProgress_progress_of docs Hne).
  rewrite (filter_none _ _ Hnone). apply progress_of_none; [|exact Hb].
  destruct docs; [contradiction|simpl; lia].
Qed.

Lemma progress_none_done_witness :
  snapshot_pending <> []
  /\ (Z.of_nat (List.length snapshot_pending) < 2 ^ 32)%Z
  /\ existsb is_done snapshot_pending = false
  /\ calculateProgress snapshot_pending = 50%Z.
Proof.
  assert (H1 : snapshot_pending <> []) by discriminate.
  assert (H2 : (Z.of_nat (List.length snapshot_pending) < 2 ^ 32)%Z) by reflexivity.
  exact (conj H1 (conj H2 (conj eq_refl
    (progress_none_done snapshot_pending H1 H2 eq_refl)))).
Defined.

(** *** Fewer than a hundred records *)

Lemma progress_table_99 : progress_table_ok 99 = true.
Proof. vm_compute. reflexivity. Qed.

Lemma progress_table_entry (bound n e : nat) :
  progress_table_ok bound = true -> n < bound -> e <= S n ->
  progress_entry_ok (S n) e = true.
Proof.
  unfold progress_table_ok. intros T Hn He.
  assert (Hin : In n (seq 0 bound)) by (apply in_seq; lia).
  rewrite forallb_forall in T. specialize (T n Hin).
  rewrite forallb_forall in T. apply T, in_seq. lia.
Qed.

Lemma progress_entry (n e : nat) :
  1 <= n <= 99 -> e <= n -> progress_entry_ok n e = true.
Proof.
  intros Hn He. destruct n as [|k]; [lia|].
  apply (progress_table_entry 99 k e progress_table_99); lia.
Qed.

Lemma snapshot_entry (docs : list Doc.t) :
  docs <> [] -> List.length docs <= 99 ->
  1 <= List.length docs <= 99
  /\ List.length (filter is_done docs) <= List.length docs.
Proof.
  intros Hne Hb. split; [|apply filter_length_le].
  destruct docs; [contradiction|simpl in *; lia].
Qed.

(** A hundred records, one of them still uploaded. *)
Lemma progress_100_with_one_pending : progress_of 100 99 = 100%Z.
Proof. vm_compute. reflexivity. Qed.

(** X6: for a snapshot of 1 to 99 records the progress lies between 50 and
    100, and it is 100 only when every record is extracted or processed.
    (From a hundred records on, 100 is shown with one record still
    pending, see [progress_100_with_one_pending].) *)
Theorem progress_range (docs : list Doc.t) :
  docs <> [] -> List.length docs <= 99 ->
  (50 <= calculateProgress docs <= 100)%Z
  /\ (calculateProgress docs = 100%Z <-> forallb is_done docs = true).
Proof.
  intros Hne Hb. destruct (snapshot_entry docs Hne Hb) as [Hn He].
  pose proof (progress_entry _ _ Hn He) as T. unfold progress_entry_ok in T.
  rewrite <- (calculateProgress_progress_of docs Hne) in T.
  repeat (apply andb_true_iff in T as [T ?]).
  split; [lia|]. rewrite <- filter_length_all.
  match goal with H : Bool.eqb _ _ = true |- _ => apply Bool.eqb_prop in H; rename H into Hq end.
  split; intros Hx.
  - apply Nat.eqb_eq. rewrite <- Hq. apply Z.eqb_eq. exact Hx.
  - apply Z.eqb_eq. rewrite Hq. apply Nat.eqb_eq. exact Hx.
Qed.

Lemma progress_range_witness :
  snapshot_20_3 <> [] /\ List.length snapshot_20_3 <= 99
  /\ (50 <= calculateProgress snapshot_20_3 <= 100)%Z.
Proof.
  assert (H1 : snapshot_20_3 <> []) by discriminate.
  assert (H2 : List.length snapshot_20_3 <= 99) by (vm_compute; lia).
  exact (conj H1 (conj H2 (proj1 (progress_range snapshot_20_3 H1 H2)))).
Defined.

(** X7: for a snapshot of 1 to 99 records with n records, e of them
    extracted or processed, the progress is the exactly rounded
    100 * (n + e) / (2 * n) unless that value lies half-way between two
    integers; there it is the rounded value or one less. *)
Theorem progress_against_formula (docs : list Doc.t) :
  docs <> [] -> List.length docs <= 99 ->
  (is_tie (List.length docs) (List.length (filter is_done docs)) = false ->
   calculateProgress docs
   = spec_progressPercent (List.length docs) (List.length (filter is_done docs)))
  /\ (spec_progressPercent (List.length docs) (List.length (filter is_done docs)) - 1
      <= calculateProgress docs
      <= spec_progressPercent (List.length docs) (List.length (filter is_done docs)))%Z.
Proof.
  intros Hne Hb. destruct (snapshot_entry docs Hne Hb) as [Hn He].
  pose proof (progress_entry _ _ Hn He) as T. unfold progress_entry_ok in T.
  rewrite <- (calculateProgress_progress_of docs Hne) in T.
  repeat (apply andb_true_iff in T as [T ?]).
  destruct (is_tie _ _).
  - split; [discriminate|].
    match goal with H : (_ || _) = true |- _ => apply orb_true_iff in H as [H|H];
      apply Z.eqb_eq in H; lia end.
  - match goal with H : (_ =? spec_progressPercent _ _)%Z = true |- _ =>
      apply Z.eqb_eq in H; split; [intros _; exact H|lia] end.
Qed.

Lemma progress_against_formula_witness :
  snapshot_mixed <> [] /\ List.length snapshot_mixed <= 99
  /\ is_tie (List.length snapshot_mixed) (List.length (filter is_done snapshot_mixed))
     = false
  /\ calculateProgress snapshot_mixed = 67%Z.
Proof.
  assert (H1 : snapshot_mixed <> []) by discriminate.
  assert (H2 : List.length snapshot_mixed <= 99) by (vm_compute; lia).
  exact (conj H1 (conj H2 (conj eq_refl
    (proj1 (progress_against_formula snapshot_mixed H1 H2) eq_refl)))).
Defined.

Lemma progress_of_monotone (n e e' : nat) :
  1 <= n <= 99 -> e <= e' -> e' <= n -> (progress_of n e <= progress_of n e')%Z.
Proof.
  intros Hn Hle He'. induction Hle as [|e' Hle IH]; [lia|].
  specialize (IH ltac:(lia)).
  pose proof (progress_entry n e' Hn ltac:(lia)) as T. unfold progress_entry_ok in T.
  repeat (apply andb_true_iff in T as [T ?]).
  match goal with H : (if e' <? n then _ else _) = true |- _ =>
    destruct (Nat.ltb_spec e' n); [apply Z.leb_le in H|]; lia end.
Qed.

(** X8: among snapshots of the same size, 1 to 99 records, the progress
    never goes down when more records are extracted or processed. *)
Theorem progress_monotone (docs docs' : list Doc.t) :
  docs <> [] -> List.length docs <= 99 ->
  List.length docs' = List.length docs ->
  List.length (filter is_done docs) <= List.length (filter is_done docs') ->
  (calculateProgress docs <= calculateProgress docs')%Z.
Proof.
  intros Hne Hb Hlen Hdone.
  assert (Hne' : docs' <> []) by (destruct docs, docs'; try discriminate; congruence).
  rewrite (calculateProgress_progress_of docs Hne),
          (calculateProgress_progress_of docs' Hne'), Hlen.
  destruct (snapshot_entry docs Hne Hb) as [Hn _].
  apply progress_of_monotone; [exact Hn|exact Hdone|].
  rewrite <- Hlen. apply filter_length_le.
Qed.

Lemma progress_monotone_witness :
  snapshot_two <> [] /\ List.length snapshot_two <= 99
  /\ List.length scenarioB = List.length snapshot_two
  /\ List.length (filter is_done snapshot_two) <= List.length (filter is_done scenarioB)
  /\ (calculateProgress snapshot_two <= calculateProgress scenarioB)%Z.
Proof.
  assert (H1 : snapshot_two <> []) by discriminate.
  assert (H2 : List.length snapshot_two <= 99) by (vm_compute; lia).
  assert (H3 : List.length scenarioB = List.length snapshot_two) by reflexivity.
  assert (H4 : List.length (filter is_done snapshot_two)
               <= List.length (filter is_done scenarioB)) by (vm_compute; lia).
  exact (conj H1 (conj H2 (conj H3 (conj H4
    (progress_monotone snapshot_two scenarioB H1 H2 H3 H4))))).
Defined.

(** ** Whole runs of the handlers *)

(** X9: a run of [handleFormatDocuments] by a signed-in principal, however
    the call settles: it never throws, issues exactly one call,
    leaves the in-flight flag cleared, and touches neither the documents nor
    the notification count. *)
Theorem format_run_frame (uid : string) (o : Settlement) (w : World) :
  fst (handleFormatDocuments (Some uid) o w) = Normal tt
  /\ invoked (after_format uid o w) = (invoked w ++ [formatDocumentsData_call])%list
  /\ isFormatting (view (after_format uid o w)) = false
  /\ documents (view (after_format uid o w)) = documents (view w)
  /\ completions (after_format uid o w) = completions w
  /\ unhandled (after_format uid o w) = unhandled w.
Proof. destruct o as [[[|] msg]|err]; repeat split. Qed.

(** X10: a run of [handleRetryProcessing]: it never throws and issues exactly
    one call; it neither sets nor clears the in-flight flag, so a retry is
    invisible to [canFormat], and it leaves the documents alone. *)
Theorem retry_run_frame (uid documentId : string) (o : Settlement) (w : World) :
  fst (handleRetryProcessing (Some uid) documentId o w) = Normal tt
  /\ invoked (after_retry uid documentId o w)
     = (invoked w ++ [formatDocumentsData_call])%list
  /\ isFormatting (view (after_retry uid documentId o w)) = isFormatting (view w)
  /\ documents (view (after_retry uid documentId o w)) = documents (view w)
  /\ canFormat (documents (view (after_retry uid documentId o w)))
       (isFormatting (view (after_retry uid documentId o w)))
     = canFormat (documents (view w)) (isFormatting (view w))
  /\ completions (after_retry uid documentId o w) = completions w
  /\ unhandled (after_retry uid documentId o w) = unhandled w.
Proof. destruct o as [[[|] msg]|err]; repeat split. Qed.

(** A format call that succeeds can leave an error on display: the retry
    started while it was in flight failed first, and the success branch does
    not clear the error. *)
Lemma successful_format_keeps_foreign_error :
  error (view (world
    (run (signed_in "u") format_and_retry_in_flight
       [Settle 1 (Rejected timeout_error);
        Settle 0 (Fulfilled {| success := true; message := None |})])))
  = Some "Processing failed: timeout".
Proof. vm_compute. reflexivity. Qed.

(** X11: [handleFormatDocuments] writes its messages in two phases.  On
    entry it clears the error and sets the status line to 'Formatting
    documents...'.  When the call settles, in whatever state the component
    is by then: a success answer sets the status line to 'Documents
    formatted successfully' and leaves the error as it is at that moment; a
    [success: false] answer sets the error to the answer's message, or to
    'Failed to format documents' when the message is missing or empty, and
    leaves the status line as it is at that moment. *)
Theorem format_messages_by_phase (uid : string) (msg : option string) (w : World) :
  (error (view (snd (handleFormatDocuments_enter (Some uid) w))) = None
   /\ status (view (snd (handleFormatDocuments_enter (Some uid) w)))
      = "Formatting documents...")
  /\ (status (view (snd (handleFormatDocuments_resume
                           (Fulfilled {| success := true; message := msg |}) w)))
      = "Documents formatted successfully"
      /\ error (view (snd (handleFormatDocuments_resume
                             (Fulfilled {| success := true; message := msg |}) w)))
         = error (view w))
  /\ (error (view (snd (handleFormatDocuments_resume
                          (Fulfilled {| success := false; message := msg |}) w)))
      = Some (match msg with
              | Some "" | None => "Failed to format documents"
              | Some text => text
              end)
      /\ status (view (snd (handleFormatDocuments_resume
                              (Fulfilled {| success := false; message := msg |}) w)))
         = status (view w)).
Proof.
  repeat split. simpl. unfold or_else.
  destruct msg as [[|c text]|]; reflexivity.
Qed.

(** X12: [handleRetryProcessing] writes its messages in two phases.  On
    entry it sets the status line to 'Retrying processing for document '
    followed by the identifier and '...', and clears the error.  When the
    call settles, in whatever state the component is by then: a success
    answer sets the status line to 'Document processing initiated
    successfully' and leaves the error as it is at that moment; a
    [success: false] answer sets the error to the answer's message, 'Failed
    to process document' by default, and a rejection sets it to 'Processing
    failed: ' followed by the thrown message, 'Unknown error' by default;
    both leave the status line as it is at that moment. *)
Theorem retry_messages_by_phase
  (uid documentId : string) (msg : option string) (w : World) :
  (error (view (snd (handleRetryProcessing_enter (Some uid) documentId w))) = None
   /\ status (view (snd (handleRetryProcessing_enter (Some uid) documentId w)))
      = "Retrying processing for document " ++ documentId ++ "...")
  /\ (status (view (snd (handleRetryProcessing_resume
                           (Fulfilled {| success := true; message := msg |}) w)))
      = "Document processing initiated successfully"
      /\ error (view (snd (handleRetryProcessing_resume
                             (Fulfilled {| success := true; message := msg |}) w)))
         = error (view w))
  /\ (error (view (snd (handleRetryProcessing_resume
                          (Fulfilled {| success := false; message := msg |}) w)))
      = Some (match msg with
              | Some "" | None => "Failed to process document"
              | Some text => text
              end)
      /\ status (view (snd (handleRetryProcessing_resume
                              (Fulfilled {| success := false; message := msg |}) w)))
         = status (view w))
  /\ (error (view (snd (handleRetryProcessing_resume
                          (Rejected {| err_message := msg |}) w)))
      = Some ("Processing failed: "
              ++ match msg with
                 | Some "" | None => "Unknown error"
                 | Some text => text
                 end)
      /\ status (view (snd (handleRetryProcessing_resume
                              (Rejected {| err_message := msg |}) w)))
         = status (view w)).
Proof.
  repeat split; simpl; unfold or_else; destruct msg as [[|c text]|]; reflexivity.
Qed.

(** ** The system under arbitrary interleavings *)

Lemma length_remove_nth {A} (l : list A) (n : nat) (a : A) :
  nth_error l n = Some a -> S (List.length (remove_nth n l)) = List.length l.
Proof.
  revert n. unfold remove_nth.
  induction l as [|x l IH]; intros [|n] H; simpl in H; try discriminate.
  - reflexivity.
  - simpl. rewrite <- (IH n H). reflexivity.
Qed.

Lemma step_well_behaved (env : Env) (s : Sys) (ev : Event) :
  well_behaved s -> well_behaved (step env s ev).
Proof.
  unfold well_behaved, outstanding. intros (Hu & Hi & Ho).
  destruct ev as [docs| |documentId|n o]; simpl.
  - destruct (currentUser env); [|auto].
    unfold onSnapshot_listener.
    destruct (allProcessed docs && hasOnProcessingComplete env); simpl; auto.
  - destruct (formatButton_enabled (view (world s))); [|auto].
    destruct (currentUser env); simpl; rewrite ?length_app; simpl.
    + repeat split; [assumption| |lia].
      apply Forall_app. split; [assumption|repeat constructor].
    + repeat split; [assumption|assumption|lia].
  - destruct (retryButton_rendered (view (world s)) documentId); [|auto].
    destruct (currentUser env); simpl; rewrite ?length_app; simpl.
    + repeat split; [assumption| |lia].
      apply Forall_app. split; [assumption|repeat constructor].
    + repeat split; [assumption|assumption|lia].
  - destruct (nth_error (pending s) n) as [a|] eqn:Hn; [|auto].
    apply length_remove_nth in Hn. simpl.
    destruct a as [|documentId]; destruct o as [[[|] msg]|err]; simpl;
      (repeat split; [assumption|assumption|lia]).
Qed.

(** X13: whatever the events and their order, nothing is ever thrown
    uncaught, every call that leaves the component is
    [formatDocumentsData({})], and no more calls are awaited than were
    issued. *)
Theorem run_well_behaved (env : Env) (evs : list Event) :
  unhandled (world (run env init evs)) = []
  /\ Forall (fun c => c = formatDocumentsData_call) (invoked (world (run env init evs)))
  /\ outstanding (run env init evs) <= List.length (invoked (world (run env init evs))).
Proof.
  assert (H : forall s, well_behaved s -> well_behaved (run env s evs)).
  { induction evs as [|ev evs IH]; intros s Hs; simpl; [exact Hs|].
    apply IH, step_well_behaved, Hs. }
  apply (H init). unfold well_behaved, outstanding. simpl.
  repeat split; [constructor|lia].
Qed.

Lemma step_documents (uid : string) (b : bool) (s : Sys) (ev : Event) :
  documents (view (world (step {| currentUser := Some uid;
                                  hasOnProcessingComplete := b |} s ev)))
  = match ev with Snapshot d => d | _ => documents (view (world s)) end.
Proof.
  destruct ev as [docs| |documentId|n o]; simpl.
  - unfold onSnapshot_listener. destruct (allProcessed docs), b; reflexivity.
  - destruct (formatButton_enabled (view (world s))); reflexivity.
  - destruct (retryButton_rendered (view (world s)) documentId); reflexivity.
  - destruct (nth_error (pending s) n) as [[|documentId]|]; [| |reflexivity];
      destruct o as [[[|] msg]|err]; reflexivity.
Qed.

(** X14: for a signed-in principal the documents shown are always those of the
    snapshot delivered last, whatever clicks and settlements came in
    between: the handlers never write the documents. *)
Theorem documents_are_latest_snapshot (uid : string) (b : bool) (evs : list Event) :
  documents (view (world (run {| currentUser := Some uid;
                                 hasOnProcessingComplete := b |} init evs)))
  = latest_snapshot evs [].
Proof.
  change (@nil Doc.t) with (documents (view (world init))).
  generalize init. unfold run, latest_snapshot.
  induction evs as [|ev evs IH]; intros s; simpl; [reflexivity|].
  rewrite IH, step_documents. reflexivity.
Qed.

(** X15: a component mounted without a signed-in principal is inert: it never
    subscribes, shows no button, issues no call and stays in its initial
    state whatever events arrive. *)
Theorem signed_out_is_inert (b : bool) (evs : list Event) :
  run {| currentUser := None; hasOnProcessingComplete := b |} init evs = init.
Proof.
  induction evs as [|ev evs IH]; simpl; [reflexivity|].
  replace (step _ init ev) with init; [exact IH|].
  destruct ev as [docs| |documentId|n o]; try reflexivity.
  destruct n; reflexivity.
Qed.

Lemma step_completions (env : Env) (s : Sys) (ev : Event) :
  completions (world (step env s ev))
  = completions (world s)
    + match ev with
      | Snapshot d => if allProcessed d && notifies env then 1 else 0
      | _ => 0
      end.
Proof.
  unfold notifies. destruct ev as [docs| |documentId|n o]; simpl.
  - destruct (currentUser env); [|rewrite andb_false_r; lia].
    unfold onSnapshot_listener.
    destruct (allProcessed docs && hasOnProcessingComplete env); simpl; lia.
  - destruct (formatButton_enabled (view (world s))); [|lia].
    destruct (currentUser env); simpl; lia.
  - destruct (retryButton_rendered (view (world s)) documentId); [|lia].
    destruct (currentUser env); simpl; lia.
  - destruct (nth_error (pending s) n) as [[|documentId]|]; [| |lia];
      destruct o as [[[|] msg]|err]; simpl; lia.
Qed.

(** X16: under any interleaving of snapshots, clicks and settlements, the
    number of completion notifications is the number of delivered snapshots
    that are all-processed when the callback was passed and somebody is
    signed in, and zero otherwise; clicks and settlements never notify. *)
Theorem notifications_under_interleaving (env : Env) (evs : list Event) :
  completions (world (run env init evs))
  = if notifies env then count_allProcessed (snapshots_of evs) else 0.
Proof.
  assert (H : forall s,
             completions (world (run env s evs))
             = completions (world s)
               + if notifies env then count_allProcessed (snapshots_of evs) else 0).
  { unfold count_allProcessed.
    induction evs as [|ev evs IH]; intros s.
    - simpl. destruct (notifies env); simpl; lia.
    - change (run env s (ev :: evs)) with (run env (step env s ev) evs).
      rewrite IH, step_completions.
      destruct ev as [docs| |documentId|n o]; simpl;
        destruct (notifies env); try destruct (allProcessed docs); simpl; lia. }
  rewrite H. reflexivity.
Qed.

(** X17: a second click on the format button before anything else happens
    does nothing: the first click disables the button, so a double click
    issues one call. *)
Theorem double_click_formats_once (uid : string) (b : bool) (s : Sys) :
  step {| currentUser := Some uid; hasOnProcessingComplete := b |}
    (step {| currentUser := Some uid; hasOnProcessingComplete := b |} s ClickFormat)
    ClickFormat
  = step {| currentUser := Some uid; hasOnProcessingComplete := b |} s ClickFormat.
Proof.
  simpl. destruct (formatButton_enabled (view (world s))) eqn:En; simpl.
  - unfold formatButton_enabled, canFormat. simpl.
    rewrite !andb_false_r. reflexivity.
  - rewrite En. reflexivity.
Qed.

(** ** More on the access rules *)

Section AccessRulesMore.
Import Rules.
Variable store : Store.

#[local] Arguments String.eqb : simpl never.

Ltac eqb_lits :=
  repeat match goal with
  | |- context [String.eqb ?x ?y] =>
      let b := eval vm_compute in (String.eqb x y) in
      match b with
      | true => change (String.eqb x y) with true
      | false => change (String.eqb x y) with false
      end
  end.

Ltac eqb_case :=
  match goal with
  | |- context [String.eqb ?l ?v] =>
      is_var v; destruct (String.eqb_spec l v) as [<-|?]
  end.

Ltac crunch := repeat first [progress eqb_lits | progress simpl | eqb_case].

Ltac build_shape :=
  first
    [ left; split; [reflexivity|]; first [left; reflexivity | right; reflexivity]
    | right; left; do 2 eexists;
      split; [reflexivity|]; split; [simpl; tauto | reflexivity]
    | right; right; eexists;
      split; [reflexivity|]; split; [reflexivity|];
      rewrite ?orb_false_r in *; assumption ].

Lemma authorize_iff_permitted (req : Request) :
  authorize store req = true <-> permitted store req.
Proof.
  destruct req as [db who m p]. unfold permitted. simpl. split.
  - unfold authorize, allowed_by.
    destruct p as [|a [|b [|c [|d [|e rest]]]]]; crunch;
      unfold if_false, if_owner, if_enrolled, isOwner, isAuthenticated;
      destruct who as [uid|], m; crunch; try discriminate;
      intros H; exists uid; (split; [reflexivity|]); build_shape.
  - intros [uid [-> [[-> Hm]|[[sub [x [-> [Hsub Hm]]]]|[courseId [-> [Hm Hs]]]]]]];
      unfold authorize, allowed_by.
    + destruct Hm as [Hm| ->]; [destruct m; try discriminate Hm|]; crunch;
        unfold if_owner, isOwner, isAuthenticated; crunch;
        rewrite String.eqb_refl; reflexivity.
    + simpl in Hsub. destruct m; try discriminate Hm;
        (destruct Hsub as [<-|[<-|[<-|[<-|[]]]]]); crunch;
        unfold if_owner, isOwner, isAuthenticated; crunch;
        rewrite String.eqb_refl; reflexivity.
    + destruct m; try discriminate Hm; crunch;
        unfold if_enrolled, isAuthenticated; crunch; rewrite Hs; reflexivity.
Qed.

Ltac by_shape :=
  match goal with
  | |- authorize ?s ?r = false =>
      let E := fresh "E" in
      destruct (authorize s r) eqn:E; [exfalso|reflexivity];
      apply authorize_iff_permitted in E;
      destruct E as [?uid [Ha [[Hp Hm]|[[?sub [?x [Hp [Hs Hm]]]]|[?c [Hp [Hm Hs]]]]]]];
      simpl in Ha, Hp, Hm
  end.

(** X18: the rules as a whole.  A request is allowed exactly when it is made
    by an authenticated principal and is a read or update of that
    principal's profile, a read in one of that principal's four
    subcollections, or a read of a course for which that principal's
    enrollment record exists; everything else is denied. *)
Theorem rules_characterised (req : Request) :
  authorize store req = true <-> permitted store req.
Proof. exact (authorize_iff_permitted req). Qed.

(** X19: a request without authentication is denied, on every path and for
    every method. *)
Theorem unauthenticated_denied (db : string) (m : Method) (p : list string) :
  authorize store {| database := db; auth := None; method := m; path := p |} = false.
Proof. by_shape; discriminate Ha. Qed.

(** X20: clients never create or delete anything: both methods are denied on
    every path to every principal, and the only write ever allowed is the
    update of the principal's own profile. *)
Theorem writes_are_profile_updates (db : string) (who : option string) (p : list string) :
  authorize store {| database := db; auth := who; method := Create; path := p |} = false
  /\ authorize store {| database := db; auth := who; method := Delete; path := p |} = false
  /\ (authorize store {| database := db; auth := who; method := Update; path := p |} = true
      <-> exists uid, who = Some uid /\ p = ["users"; uid]).
Proof.
  split; [|split].
  - by_shape; try discriminate Hm. destruct Hm as [Hm|Hm]; discriminate Hm.
  - by_shape; try discriminate Hm. destruct Hm as [Hm|Hm]; discriminate Hm.
  - rewrite authorize_iff_permitted. unfold permitted. simpl. split.
    + intros [uid [Ha [[Hp Hm]|[[sub [x [Hp [Hs Hm]]]]|[c [Hp [Hm Hs]]]]]]];
        try discriminate Hm. exists uid. split; assumption.
    + intros [uid [Ha Hp]]. exists uid. split; [exact Ha|].
      left. split; [exact Hp|right; reflexivity].
Qed.

(** X21: principals are isolated from one another: whatever the method and
    however deep the path, nothing below [users/{other}] is allowed to a
    principal whose uid is not [other]. *)
Theorem users_tree_isolated
  (db uid other : string) (m : Method) (rest : list string) :
  other <> uid ->
  authorize store {| database := db; auth := Some uid; method := m;
                     path := "users" :: other :: rest |} = false.
Proof.
  intros Hne. by_shape; injection Ha as <-; try discriminate Hp;
    injection Hp as Hp; congruence.
Qed.

(** X22: the profile [users/{U}]: reads and updates are allowed to the
    signed-in principal [U] and to nobody else; create and delete are
    denied to everybody. *)
Theorem profile_read_update_by_owner
  (db U : string) (who : option string) (m : Method) :
  authorize store {| database := db; auth := who; method := m; path := ["users"; U] |}
  = true
  <-> (is_read m = true \/ m = Update) /\ who = Some U.
Proof.
  rewrite authorize_iff_permitted. unfold permitted. simpl. split.
  - intros [uid [Ha [[Hp Hm]|[[sub [x [Hp [Hs Hm]]]]|[c [Hp [Hm Hs]]]]]]];
      try discriminate Hp. injection Hp as ->. split; assumption.
  - intros [Hm ->]. exists U. split; [reflexivity|]. left. split; [reflexivity|exact Hm].
Qed.

(** X23: the subcollections [formatted_data], [data] and [predictions] (and
    [documents]) of [users/{A}] are read-only for [A] and closed to everybody
    else. *)
Theorem subcollections_read_by_owner
  (db A sub x : string) (who : option string) (m : Method) :
  In sub owned_subcollections ->
  (authorize store {| database := db; auth := who; method := m;
                      path := ["users"; A; sub; x] |} = true
   <-> is_read m = true /\ who = Some A).
Proof.
  intros Hsub. rewrite authorize_iff_permitted. unfold permitted. simpl. split.
  - intros [uid [Ha [[Hp Hm]|[[sub' [x' [Hp [Hs Hm]]]]|[c [Hp [Hm Hs]]]]]]];
      try discriminate Hp. injection Hp as -> _ _. split; assumption.
  - intros [Hm ->]. exists A. split; [reflexivity|]. right. left.
    exists sub, x. repeat split; assumption.
Qed.

(** X24: the default rule.  Collections cannot be addressed as documents, no
    path of three or of more than four segments is allowed, and the
    enrollment record [users/{u}/courses/{c}] that the course rule consults
    is itself closed to every client, its owner included. *)
Theorem default_deny
  (db : string) (who : option string) (m : Method) (a b c d e : string)
  (rest : list string) :
  authorize store {| database := db; auth := who; method := m; path := [] |} = false
  /\ authorize store {| database := db; auth := who; method := m; path := [a] |} = false
  /\ authorize store {| database := db; auth := who; method := m;
                        path := [a; b; c] |} = false
  /\ authorize store {| database := db; auth := who; method := m;
                        path := a :: b :: c :: d :: e :: rest |} = false
  /\ authorize store {| database := db; auth := who; method := m;
                        path := ["users"; a; "courses"; b] |} = false.
Proof.
  repeat split; by_shape; try discriminate Hp.
  injection Hp as _ <- _. simpl in Hs.
  destruct Hs as [Hs|[Hs|[Hs|[Hs|[]]]]]; discriminate Hs.
Qed.
End AccessRulesMore.

Lemma users_tree_isolated_witness :
  "bob" <> "alice"
  /\ Rules.authorize enrolled_store
       {| Rules.database := "(default)"; Rules.auth := Some "alice";
          Rules.method := Rules.Get;
          Rules.path := ["users"; "bob"; "documents"; "syllabus"] |} = false.
Proof.
  split; [discriminate|].
  apply (users_tree_isolated enrolled_store "(default)" "alice" "bob" Rules.Get
           ["documents"; "syllabus"]).
  discriminate.
Defined.

Lemma subcollections_read_by_owner_witness :
  In "predictions" owned_subcollections
  /\ Rules.authorize enrolled_store
       {| Rules.database := "(default)"; Rules.auth := Some "alice";
          Rules.method := Rules.List;
          Rules.path := ["users"; "alice"; "predictions"; "p1"] |} = true.
Proof.
  split; [simpl; tauto|].
  apply (proj2 (subcollections_read_by_owner enrolled_store "(default)" "alice"
                  "predictions" "p1" (Some "alice") Rules.List
                  (or_intror (or_intror (or_intror (or_introl eq_refl)))))).
  split; reflexivity.
Defined.
